(** * amu_hdc1080: a shallow embedding of the HDC1080 driver

    The driver of [amu_hdc1080.py] talks to a temperature / humidity sensor
    over an I2C bus.  The embedding keeps the shape of the Python module:

    - bytes are [Byte.byte], the scratch [bytearray] is a [list byte]
      updated by index;
    - Python integers are [Z]; Python floats are the kernel's binary64
      [float], so the conversions compute bit for bit what CPython does;
    - every bus transfer and every [time.sleep] is an effect on an explicit
      [World], threaded by a small state-and-exception monad;
    - the class attribute [HDC1080._BUFFER] lives in the [World], once, and
      not in the instances: that is where Python keeps it. *)

From Stdlib Require Import ZArith QArith List Ascii String Floats Uint63 Lia
  Bool.
From stdpp Require Import base list.
Import ListNotations.

Local Open Scope Z_scope.

(* The decimal float literals of the source (0.015, 0.0635) are read as the
   nearest binary64 value, which is what they are in Python. *)
Set Warnings "-inexact-float".

(** ** Bytes *)

Abbreviation byte := Byte.byte.

Definition byte_to_Z (b : byte) : Z := Z.of_N (Byte.to_N b).

(** The value stored by [bytearray.__setitem__] for an integer that the
    source has already masked with [& 0xFF]. *)
Definition byte_of_Z (z : Z) : byte :=
  match Byte.of_N (Z.to_N (Z.land z 255)) with
  | Some b => b
  | None => Byte.x00
  end.

(** ** [struct.unpack_from] for the two formats the module uses

    [">H"] is a big-endian unsigned short, [">h"] a big-endian signed short;
    the result is the first (and only) field of the tuple.  [None] stands
    for [struct.error] (unknown format here, or a buffer that is too
    short). *)

Definition be16 (hi lo : byte) : Z :=
  Z.lor (Z.shiftl (byte_to_Z hi) 8) (byte_to_Z lo).

Definition to_signed16 (u : Z) : Z :=
  if u <? 2 ^ 15 then u else u - 2 ^ 16.

Definition unpack_from (struct_format : string) (buffer : list byte)
    (offset : nat) : option Z :=
  match buffer !! offset, buffer !! S offset with
  | Some hi, Some lo =>
      if String.eqb struct_format ">H" then Some (be16 hi lo)
      else if String.eqb struct_format ">h" then Some (to_signed16 (be16 hi lo))
      else None
  | _, _ => None
  end.

(** ** Constants *)

Definition _HDC1080_I2CADDR_DEFAULT : Z := 0x40.
Definition _HDC1080_DEVICE_ID : Z := 0x1050.

Definition _REG_TEMP : Z := 0x00.
Definition _REG_HUMI : Z := 0x01.
Definition _REG_CONF : Z := 0x02.
Definition _REG_DEID : Z := 0xFF.

Definition READ_BOTH_VALUES : Z := 0x01.
Definition READ_SINGLE_VALUE : Z := 0x00.

(** ** Conversions

    [raw_value / (2 ** 16)] is Python's true division of two integers: the
    correctly rounded quotient.  Both operands are exact as binary64 here,
    so it is the binary64 division of their conversions. *)

Definition float_of_int (z : Z) : float :=
  if z <? 0 then PrimFloat.opp (PrimFloat.of_uint63 (Uint63.of_Z (- z)))
  else PrimFloat.of_uint63 (Uint63.of_Z z).

Definition _convert_to_celsius (raw_value : Z) : float :=
  (float_of_int raw_value / float_of_int (2 ^ 16) * float_of_int 165
   - float_of_int 40)%float.

Definition _convert_to_relative_humidity (raw_value : Z) : float :=
  (float_of_int raw_value / float_of_int (2 ^ 16) * float_of_int 100)%float.

(** A binary fraction [m * 2^e] in lowest terms: factors of two move from
    the mantissa to a negative exponent. *)
Fixpoint lowest_terms (m : positive) (e : Z) : positive * Z :=
  match m with
  | xO m' => if e <? 0 then lowest_terms m' (e + 1) else (m, e)
  | _ => (m, e)
  end.

(** The rational number a finite binary64 value denotes. *)
Definition float_to_Q (f : float) : option Q :=
  match Prim2SF f with
  | S754_zero _ => Some 0%Q
  | S754_finite s m e =>
      let '(m, e) := lowest_terms m e in
      let n := if s then Z.neg m else Z.pos m in
      Some (if 0 <=? e then inject_Z (Z.shiftl n e)
            else (n # Pos.shiftl 1 (Z.to_N (- e)))%Q)
  | S754_infinity _ | S754_nan => None
  end.

(** [denotes f q]: [f] is finite and is exactly the rational [q]. *)
Definition denotes (f : float) (q : Q) : bool :=
  match float_to_Q f with
  | Some x => Qeq_bool x q
  | None => false
  end.

(** The duration [time.sleep] is asked for: the exact value of its binary64
    argument, in seconds.  A decimal literal of the source is the binary64
    nearest to it, in Python as in the literals below. *)
Definition seconds (f : float) : Q :=
  match float_to_Q f with
  | Some q => q
  | None => 0%Q
  end.
Arguments seconds : simpl never.

(** The datasheet formulas over the rationals. *)
Definition celsius_Q (raw_value : Z) : Q :=
  (inject_Z raw_value / inject_Z (2 ^ 16) * 165 - 40)%Q.

Definition relative_humidity_Q (raw_value : Z) : Q :=
  (inject_Z raw_value / inject_Z (2 ^ 16) * 100)%Q.

(** ** The bus and the world *)

(** What the driver needs of the I2C bus: send bytes to an address, and
    clock one byte in from an address.  [Bus] is the state of everything
    behind the wires. *)
Class I2C (Bus : Type) := {
  writeto : Z -> list byte -> Bus -> Bus;
  readfrom : Z -> Bus -> byte * Bus
}.

(** A read of [n] bytes in one transfer. *)
Fixpoint readfrom_n `{I2C Bus} (address : Z) (n : nat) (b : Bus)
    : list byte * Bus :=
  match n with
  | O => ([], b)
  | S k =>
      let '(x, b1) := readfrom address b in
      let '(xs, b2) := readfrom_n address k b1 in
      (x :: xs, b2)
  end.

Inductive event : Type :=
  | Write (address : Z) (data : list byte)
  | Read (address : Z) (data : list byte)
  | Sleep (seconds : Q).

Inductive exn : Type :=
  | RuntimeError (msg : string)
  | IndexError
  | StructError.

Record World (Bus : Type) : Type := mkWorld {
  bus : Bus;
  _BUFFER : list byte;      (* the class attribute HDC1080._BUFFER *)
  log : list event          (* bus transfers and sleeps, oldest first *)
}.
Arguments mkWorld {Bus}.
Arguments bus {Bus}.
Arguments _BUFFER {Bus}.
Arguments log {Bus}.

(** [bytearray(5)] *)
Definition initial_BUFFER : list byte := repeat Byte.x00 5.

Definition initial_world {Bus} (b : Bus) : World Bus :=
  mkWorld b initial_BUFFER [].

(** ** The monad: state, and exceptions that keep the state *)

Definition M (Bus A : Type) : Type := World Bus -> (exn + A) * World Bus.

Definition ret {Bus A} (a : A) : M Bus A := fun w => (inr a, w).

Definition raise {Bus A} (e : exn) : M Bus A := fun w => (inl e, w).

Definition bind {Bus A B} (m : M Bus A) (k : A -> M Bus B) : M Bus B :=
  fun w =>
    match m w with
    | (inl e, w1) => (inl e, w1)
    | (inr a, w1) => k a w1
    end.

Notation "'do' x <- m 'in' k" := (bind m (fun x => k))
  (at level 10, x name, m at level 99, k at level 200).
Notation "'run' m 'in' k" := (bind m (fun _ => k))
  (at level 10, m at level 99, k at level 200).

Definition emit {Bus} (e : event) : M Bus unit :=
  fun w => (inr tt, mkWorld (bus w) (_BUFFER w) (log w ++ [e])).

Definition get_BUFFER {Bus} : M Bus (list byte) :=
  fun w => (inr (_BUFFER w), w).

Definition put_BUFFER {Bus} (buf : list byte) : M Bus unit :=
  fun w => (inr tt, mkWorld (bus w) buf (log w)).

(** [time.sleep(seconds)] *)
Definition sleep {Bus} (seconds : Q) : M Bus unit := emit (Sleep seconds).

(** ** [adafruit_bus_device.i2c_device.I2CDevice]

    The handle is the 7-bit address; the bus object is the world's.  Each
    method runs inside the source's [with self.i2c_device as i2c:] block,
    which locks the bus around the transfers and moves no data.

    Not modelled: the library's constructor probes the address with a
    transfer that carries no data and raises [ValueError] when nothing
    answers, and a transfer that fails raises [OSError].  The bus here
    always answers, so every statement below is about runs in which the
    device is present and no transfer fails. *)

Section Driver.
Context {Bus : Type} `{I2C Bus}.

(** [i2c.write(buf)] *)
Definition i2c_write (address : Z) (data : list byte) : M Bus unit :=
  fun w =>
    (inr tt,
     mkWorld (writeto address data (bus w)) (_BUFFER w)
       (log w ++ [Write address data])).

(** A read transfer of [n] bytes. *)
Definition i2c_read (address : Z) (n : nat) : M Bus (list byte) :=
  fun w =>
    let '(data, b) := readfrom_n address n (bus w) in
    (inr data, mkWorld b (_BUFFER w) (log w ++ [Read address data])).

(** [i2c.write_then_readinto(out, in_, out_end=1, in_start=1)]: the register
    address goes out, [n] bytes come back. *)
Definition write_then_readinto (address : Z) (out : list byte) (n : nat)
    : M Bus (list byte) :=
  run i2c_write address out in
  i2c_read address n.

(** [self._BUFFER[i] = v]; a [bytearray] raises [IndexError] out of range. *)
Definition BUFFER_setitem (i : nat) (v : byte) : M Bus unit :=
  do buf <- get_BUFFER in
  if (i <? length buf)%nat then put_BUFFER (<[i := v]> buf)
  else raise IndexError.

(** [i2c.write(self._BUFFER, end=e)] sends the slice [_BUFFER[0:e]]. *)
Definition write_BUFFER (address : Z) (e : nat) : M Bus unit :=
  do buf <- get_BUFFER in
  i2c_write address (take e buf).

(** [i2c.readinto(self._BUFFER, start=s, end=e)] fills the slice
    [_BUFFER[s:e]]; a slice is clamped to the buffer, and [end] defaults to
    [len(_BUFFER)]. *)
Definition readinto_BUFFER (address : Z) (s : nat) (e : option nat)
    : M Bus unit :=
  do buf <- get_BUFFER in
  let e' := Nat.min (default (length buf) e) (length buf) in
  let s' := Nat.min s (length buf) in
  do data <- i2c_read address (e' - s') in
  put_BUFFER (take s' buf ++ data ++ drop (s' + length data) buf).

(** ** The driver instance *)

Record HDC1080 : Type := mkHDC1080 {
  i2c_device : Z;      (* I2CDevice(i2c, address) *)
  mode : Z
}.

(** ** The register descriptors of [adafruit_register]

    The module imports [ROUnaryStruct], [RWBit] and [RWBits]; their code is
    not part of the repository.  Each descriptor owns a private buffer of
    [1 + register_width] bytes whose first byte is the register address; a
    get or a set starts by reading the register into the rest of it, so no
    state survives between two uses, and the buffer is a local value here. *)

(** Modelled from the spec: [ROUnaryStruct.__get__] of the imported
    [adafruit_register.i2c_struct], for a two-byte format: the register
    address is written, two bytes are read back and unpacked ("reads the
    device-ID register (address 0xFF, big-endian unsigned 16-bit)"). *)
Definition ROUnaryStruct_get (register_address : Z) (struct_format : string)
    (obj : HDC1080) : M Bus Z :=
  let out := [byte_of_Z register_address] in
  do data <- write_then_readinto (i2c_device obj) out 2 in
  match unpack_from struct_format (out ++ data) 1 with
  | Some v => ret v
  | None => raise StructError
  end.

(** Modelled from the spec: [RWBit.__set__] of the imported
    [adafruit_register.i2c_bit], with [lsb_first=False]: read the register,
    set or clear the one bit (on the truth value of [value]), and write the
    register back "as a whole 2-byte transfer". *)
Definition RWBit_set (register_address : Z) (bit : Z) (register_width : nat)
    (obj : HDC1080) (value : Z) : M Bus unit :=
  let out := [byte_of_Z register_address] in
  let bit_mask := Z.shiftl 1 (bit mod 8) in
  let byte_ix := (register_width - Z.to_nat (bit / 8))%nat in
  do data <- write_then_readinto (i2c_device obj) out register_width in
  let buffer := out ++ data in
  let old := byte_to_Z (default Byte.x00 (buffer !! byte_ix)) in
  let new := if value =? 0 then Z.land old (Z.lnot bit_mask)
             else Z.lor old bit_mask in
  i2c_write (i2c_device obj) (<[byte_ix := byte_of_Z new]> buffer).

(** The register value of a big-endian buffer, [reg = (reg << 8) | b]. *)
Definition reg_of_bytes (data : list byte) : Z :=
  fold_left (fun reg b => Z.lor (Z.shiftl reg 8) (byte_to_Z b)) data 0.

(** The bytes of a register, most significant first: the loop
    [buffer[i] = reg & 0xFF; reg >>= 8] run from the last byte down. *)
Fixpoint bytes_of_reg (n : nat) (reg : Z) : list byte :=
  match n with
  | O => []
  | S k => bytes_of_reg k (Z.shiftr reg 8) ++ [byte_of_Z (Z.land reg 255)]
  end.

(** Modelled from the spec: [RWBits.__set__] of the imported
    [adafruit_register.i2c_bits], with [lsb_first=False]: read the register,
    replace the [num_bits] bits from [lowest_bit] up by [value], and write
    the register back. *)
Definition RWBits_set (num_bits : Z) (register_address : Z) (lowest_bit : Z)
    (register_width : nat) (obj : HDC1080) (value : Z) : M Bus unit :=
  let out := [byte_of_Z register_address] in
  let bit_mask := Z.shiftl (Z.shiftl 1 num_bits - 1) lowest_bit in
  let value := Z.shiftl value lowest_bit in
  do data <- write_then_readinto (i2c_device obj) out register_width in
  let reg := reg_of_bytes data in
  let reg := Z.land reg (Z.lnot bit_mask) in
  let reg := Z.lor reg value in
  i2c_write (i2c_device obj) (out ++ bytes_of_reg register_width reg).

(** The class attributes [_device_id], [_software_reset], [_temp_resolution],
    [_humidity_resolution] and [_operation_mode]: the first is only read,
    the others are only assigned. *)
Definition _device_id : HDC1080 -> M Bus Z :=
  ROUnaryStruct_get _REG_DEID ">H".

Definition set_software_reset : HDC1080 -> Z -> M Bus unit :=
  RWBit_set _REG_CONF 15 2.

Definition set_temp_resolution : HDC1080 -> Z -> M Bus unit :=
  RWBit_set _REG_CONF 10 2.

Definition set_humidity_resolution : HDC1080 -> Z -> M Bus unit :=
  RWBits_set 2 _REG_CONF 8 2.

Definition set_operation_mode : HDC1080 -> Z -> M Bus unit :=
  RWBit_set _REG_CONF 12 2.

(** ** [HDC1080] *)

Definition device_not_found : exn :=
  RuntimeError "Failed to find a HDC1080 on I2C bus!".

Definition wrong_mode_single : exn :=
  RuntimeError
    "Wrong mode, use temperature_and_humidity if mode == READ_BOTH_VALUES".

Definition wrong_mode_both : exn :=
  RuntimeError
    "Wrong mode, use temperature or humidity if mode == READ_SINGLE_VALUE".

Definition __init__ (address : Z) (mode : Z) : M Bus HDC1080 :=
  let self := mkHDC1080 address mode in
  do id <- _device_id self in
  if negb (id =? _HDC1080_DEVICE_ID) then raise device_not_found
  else
    run set_software_reset self 0x1 in
    run sleep (seconds 0.015) in
    run set_temp_resolution self 0x00 in
    run set_humidity_resolution self 0x00 in
    run set_operation_mode self mode in
    ret self.

Definition unpack_BUFFER (struct_format : string) (offset : nat) : M Bus Z :=
  do buf <- get_BUFFER in
  match unpack_from struct_format buf offset with
  | Some v => ret v
  | None => raise StructError
  end.

Definition _read_from_register (self : HDC1080) (register : Z)
    (struct_format : string) : M Bus Z :=
  run BUFFER_setitem 0 (byte_of_Z (Z.land register 0xFF)) in
  run write_BUFFER (i2c_device self) 1 in
  run sleep (seconds 0.0635) in
  run readinto_BUFFER (i2c_device self) 1 (Some 3%nat) in
  unpack_BUFFER struct_format 1.

Definition _read_from_registers (self : HDC1080) (register : Z)
    (struct_format : string) : M Bus (Z * Z) :=
  run BUFFER_setitem 0 (byte_of_Z (Z.land register 0xFF)) in
  run write_BUFFER (i2c_device self) 1 in
  run sleep (seconds 0.0635) in
  run readinto_BUFFER (i2c_device self) 1 None in
  do v0 <- unpack_BUFFER struct_format 1 in
  do v1 <- unpack_BUFFER struct_format 3 in
  ret (v0, v1).

Definition temperature (self : HDC1080) : M Bus float :=
  if mode self =? READ_BOTH_VALUES then raise wrong_mode_single
  else
    do value <- _read_from_register self _REG_TEMP ">h" in
    ret (_convert_to_celsius value).

Definition humidity (self : HDC1080) : M Bus float :=
  if mode self =? READ_BOTH_VALUES then raise wrong_mode_single
  else
    do value <- _read_from_register self _REG_HUMI ">h" in
    ret (_convert_to_relative_humidity value).

Definition temperature_and_humidity (self : HDC1080) : M Bus (float * float) :=
  if mode self =? READ_SINGLE_VALUE then raise wrong_mode_both
  else
    do values <- _read_from_registers self _REG_TEMP ">h" in
    ret (_convert_to_celsius (fst values),
         _convert_to_relative_humidity (snd values)).

(** [self._BUFFER] as an instance sees it: no method ever assigns the
    attribute on an instance, so the lookup always ends at the class. *)
Definition instance_BUFFER (self : HDC1080) (w : World Bus) : list byte :=
  _BUFFER w.

End Driver.

(** ** A scripted bus for concrete runs

    The state is the queue of bytes the device will answer with; writes are
    accepted and change nothing, a read past the end of the script yields
    zero bytes. *)

Definition MockBus : Type := list byte.

#[export] Instance MockBus_I2C : I2C MockBus := {|
  writeto := fun _ _ q => q;
  readfrom := fun _ q =>
    match q with
    | [] => (Byte.x00, [])
    | x :: q' => (x, q')
    end
|}.

(** A device that answers the ID read with 0x1050 and every read of the
    configuration register with 0x1000. *)
Definition found_script : MockBus :=
  [Byte.x10; Byte.x50; Byte.x10; Byte.x00; Byte.x10; Byte.x00;
   Byte.x10; Byte.x00; Byte.x10; Byte.x00].

(** ** [_debug_config_register]

    The method prints the two bytes of the configuration register in
    binary.  Standard output is modelled as the value returned: the lines
    printed, in order. *)

(** The binary digits of a positive number, most significant first, in
    front of [acc]. *)
Fixpoint bin_digits (p : positive) (acc : string) : string :=
  match p with
  | xH => String "1"%char acc
  | xO p' => bin_digits p' (String "0"%char acc)
  | xI p' => bin_digits p' (String "1"%char acc)
  end.

Fixpoint zeros (n : nat) : string :=
  match n with
  | O => EmptyString
  | S k => String "0"%char (zeros k)
  end.

(** ["{0:08b}".format(n)] for [n >= 0]: the binary digits, padded with zeros
    on the left to a width of at least 8. *)
Definition format_08b (n : Z) : string :=
  let digits :=
    match n with
    | Zpos p => bin_digits p EmptyString
    | _ => "0"%string
    end in
  (zeros (8 - String.length digits) ++ digits)%string.

Section Debug.
Context {Bus : Type} `{I2C Bus}.

(** [self._BUFFER[i]] read as an integer; [IndexError] out of range. *)
Definition BUFFER_getitem (i : nat) : M Bus Z :=
  do buf <- get_BUFFER in
  match buf !! i with
  | Some b => ret (byte_to_Z b)
  | None => raise IndexError
  end.

Definition _debug_config_register (self : HDC1080) : M Bus (list string) :=
  run BUFFER_setitem 0 (byte_of_Z (Z.land _REG_CONF 0xFF)) in
  run write_BUFFER (i2c_device self) 1 in
  run sleep (seconds 0.0635) in
  run readinto_BUFFER (i2c_device self) 1 (Some 3%nat) in
  do b1 <- BUFFER_getitem 1 in
  let line1 := format_08b b1 in
  do b2 <- BUFFER_getitem 2 in
  let line2 := format_08b b2 in
  ret [line1; line2].

End Debug.

(** [int(s, 2)] on a string of binary digits; [None] on any other
    character and on the empty string. *)
Fixpoint parse_bin_from (acc : Z) (s : string) : option Z :=
  match s with
  | EmptyString => Some acc
  | String c s' =>
      if Ascii.eqb c "0"%char then parse_bin_from (2 * acc) s'
      else if Ascii.eqb c "1"%char then parse_bin_from (2 * acc + 1) s'
      else None
  end.

Definition parse_bin (s : string) : option Z :=
  match s with
  | EmptyString => None
  | _ => parse_bin_from 0 s
  end.

(** The construction a caller writes as [HDC1080(i2c)]: the default address
    and the default mode. *)
Definition HDC1080_default {Bus : Type} `{I2C Bus} : M Bus HDC1080 :=
  __init__ _HDC1080_I2CADDR_DEFAULT READ_SINGLE_VALUE.

(** An operation that leaves the length of the scratch buffer as it was. *)
Definition keeps_BUFFER_length {Bus A} (m : M Bus A) : Prop :=
  forall w, length (_BUFFER (snd (m w))) = length (_BUFFER w).

(** ** Definitions used by the statements below *)

(** One millisecond, in the seconds [time.sleep] counts in. *)
Definition ms : Q := 1 # 1000.

(** The integers [lo], [lo + 1], ..., [n] of them. *)
Fixpoint zrange (n : nat) (lo : Z) : list Z :=
  match n with
  | O => []
  | S k => lo :: zrange k (lo + 1)
  end.


(** Both conversions of [r] are exact. *)
Definition conversions_exact (r : Z) : bool :=
  denotes (_convert_to_celsius r) (celsius_Q r)
  && denotes (_convert_to_relative_humidity r) (relative_humidity_Q r).

(** The two bytes [set_humidity_resolution self 0] writes after the register
    address, when the register read back as [hi], [lo]. *)
Definition humidity_resolution_written (hi lo : byte) : list byte :=
  bytes_of_reg 2
    (Z.lor
       (Z.land (reg_of_bytes [hi; lo])
          (Z.lnot (Z.shiftl (Z.shiftl 1 2 - 1) 8)))
       (Z.shiftl 0 8)).

Definition is_runtime_error {A} (r : exn + A) : bool :=
  match r with
  | inl (RuntimeError _) => true
  | _ => false
  end.

(** * Properties *)

(** ** The conversions are exact

    On every 16-bit raw value, signed or unsigned, no operation of either
    conversion rounds: the binary64 result is the rational number of the
    datasheet formula.  The check runs over the whole range. *)


Lemma forallb_zrange (f : Z -> bool) (n : nat) (lo : Z) :
  forallb f (zrange n lo) = true ->
  forall r, lo <= r < lo + Z.of_nat n -> f r = true.
Proof.
  revert lo. induction n as [|n IH]; intros lo Hall r Hr.
  - simpl in Hr. lia.
  - simpl in Hall. apply andb_true_iff in Hall as [Hlo Hrest].
    destruct (Z.eq_dec r lo) as [->|Hne]; [exact Hlo|].
    apply (IH (lo + 1) Hrest). lia.
Qed.


Lemma conversions_exact_16bit :
  forall r, -32768 <= r <= 65535 -> conversions_exact r = true.
Proof.
  intros r Hr.
  apply (forallb_zrange conversions_exact (Z.to_nat 98304) (-32768)).
  - vm_compute. reflexivity.
  - rewrite Z2Nat.id; lia.
Qed.

(** C2: [_convert_to_celsius] maps a raw value [r] to [r/65536 * 165 - 40]
    (exactly, for every 16-bit raw value, signed or unsigned); raw value 0
    gives -40.0, and raw value 65535 gives a value just below 125.0, less
    than 2^-8 away from it. *)
Theorem convert_to_celsius_formula :
  (forall r, -32768 <= r <= 65535 ->
     denotes (_convert_to_celsius r) (celsius_Q r) = true)
  /\ _convert_to_celsius 0 = (-40)%float
  /\ denotes (_convert_to_celsius 65535) (125 - (165 # 65536))%Q = true
  /\ (PrimFloat.abs (_convert_to_celsius 65535 - 125) <? 0.00390625)%float
     = true.
Proof.
  split; [|repeat split; vm_compute; reflexivity].
  intros r Hr. pose proof (conversions_exact_16bit r Hr) as E.
  apply andb_true_iff in E. exact (proj1 E).
Qed.

Lemma convert_to_celsius_formula_witness :
  -32768 <= 26176 <= 65535
  /\ denotes (_convert_to_celsius 26176) (celsius_Q 26176) = true.
Proof.
  split; [lia|]. apply (proj1 convert_to_celsius_formula 26176). lia.
Defined.

(** C3: [_convert_to_relative_humidity] maps a raw value [r] to
    [r/65536 * 100] (exactly, for every 16-bit raw value, signed or
    unsigned); raw value 0 gives 0.0, and raw value 65535 gives a value just
    below 100.0, less than 2^-8 away from it. *)
Theorem convert_to_relative_humidity_formula :
  (forall r, -32768 <= r <= 65535 ->
     denotes (_convert_to_relative_humidity r) (relative_humidity_Q r) = true)
  /\ _convert_to_relative_humidity 0 = 0%float
  /\ denotes (_convert_to_relative_humidity 65535) (100 - (100 # 65536))%Q
     = true
  /\ (PrimFloat.abs (_convert_to_relative_humidity 65535 - 100)
      <? 0.00390625)%float = true.
Proof.
  split; [|repeat split; vm_compute; reflexivity].
  intros r Hr. pose proof (conversions_exact_16bit r Hr) as E.
  apply andb_true_iff in E. exact (proj2 E).
Qed.

Lemma convert_to_relative_humidity_formula_witness :
  -32768 <= 32768 <= 65535
  /\ denotes (_convert_to_relative_humidity 32768) (relative_humidity_Q 32768)
     = true.
Proof.
  split; [lia|]. apply (proj1 convert_to_relative_humidity_formula 32768). lia.
Defined.

(** ** Bytes and 16-bit registers *)

Lemma byte_of_to_Z (b : byte) : byte_of_Z (byte_to_Z b) = b.
Proof. destruct b; reflexivity. Qed.

Lemma byte_to_Z_range (b : byte) : 0 <= byte_to_Z b < 256.
Proof. destruct b; vm_compute; split; congruence. Qed.

Lemma byte_of_Z_land (z : Z) : byte_of_Z (Z.land z 255) = byte_of_Z z.
Proof.
  unfold byte_of_Z. now rewrite <- Z.land_assoc, Z.land_diag.
Qed.

(** A boolean property of two bytes holds everywhere once it has been run on
    all 65536 pairs. *)
Lemma forall_byte_pairs (P : byte -> byte -> bool) :
  forallb (fun h => forallb (fun l => P (byte_of_Z h) (byte_of_Z l))
                      (zrange 256 0)) (zrange 256 0) = true ->
  forall hi lo, P hi lo = true.
Proof.
  intros Hall hi lo.
  pose proof (byte_to_Z_range hi) as Hhi.
  pose proof (byte_to_Z_range lo) as Hlo.
  pose proof (forallb_zrange _ _ _ Hall (byte_to_Z hi)) as Hrow.
  cbv beta in Hrow.
  pose proof (forallb_zrange _ _ _ (Hrow ltac:(simpl; lia)) (byte_to_Z lo)
                ltac:(simpl; lia)) as Hcell.
  cbv beta in Hcell. now rewrite !byte_of_to_Z in Hcell.
Qed.

(** [be16] is the big-endian unsigned reading: high byte first. *)
Lemma be16_spec (hi lo : byte) :
  be16 hi lo = 256 * byte_to_Z hi + byte_to_Z lo.
Proof.
  apply Z.eqb_eq.
  apply (forall_byte_pairs
           (fun h l => be16 h l =? 256 * byte_to_Z h + byte_to_Z l)).
  vm_compute. reflexivity.
Qed.

Lemma be16_range (hi lo : byte) : 0 <= be16 hi lo <= 65535.
Proof.
  rewrite be16_spec.
  pose proof (byte_to_Z_range hi). pose proof (byte_to_Z_range lo). lia.
Qed.

Lemma length_5 {A} (l : list A) :
  length l = 5%nat -> exists x0 x1 x2 x3 x4, l = [x0; x1; x2; x3; x4].
Proof.
  intros Hl. do 5 (destruct l as [|? l]; [discriminate|]).
  destruct l; [|discriminate]. eauto 6.
Qed.







(** ** Running the driver *)

Section Props.
Context {Bus : Type} `{I2C Bus}.

(** Unfold one driver operation down to the bus primitives; [bind] goes
    last, the operations bring their own. *)
Ltac unfold_driver :=
  unfold __init__, _device_id, set_software_reset, set_temp_resolution,
    set_humidity_resolution, set_operation_mode, ROUnaryStruct_get,
    RWBit_set, RWBits_set, write_then_readinto,
    temperature, humidity, temperature_and_humidity,
    _read_from_register, _read_from_registers, BUFFER_setitem, write_BUFFER,
    readinto_BUFFER, unpack_BUFFER, get_BUFFER, put_BUFFER, sleep, emit,
    i2c_write, i2c_read, ret, raise, bind.

Lemma read_from_register_run (self : HDC1080) (register : Z)
    (w : World Bus) (x0 x1 x2 x3 x4 : byte) :
  _BUFFER w = [x0; x1; x2; x3; x4] ->
  exists d0 d1 b,
    _read_from_register self register ">h" w =
      (inr (to_signed16 (be16 d0 d1)),
       mkWorld b [byte_of_Z register; d0; d1; x3; x4]
         (log w ++ [Write (i2c_device self) [byte_of_Z register];
                    Sleep (seconds 0.0635);
                    Read (i2c_device self) [d0; d1]])).
Proof.
  intros Hbuf. unfold_driver.
  destruct w as [b0 buf lg]. simpl in *. subst buf.
  destruct (readfrom (i2c_device self)
              (writeto (i2c_device self) [byte_of_Z register] b0))
    as [d0 b1] eqn:E0.
  destruct (readfrom (i2c_device self) b1) as [d1 b2] eqn:E1.
  exists d0, d1, b2.
  rewrite !byte_of_Z_land. simpl. rewrite !E0. simpl. rewrite !E1. simpl.
  now rewrite <- !app_assoc.
Qed.

Lemma read_from_registers_run (self : HDC1080) (register : Z)
    (w : World Bus) (x0 x1 x2 x3 x4 : byte) :
  _BUFFER w = [x0; x1; x2; x3; x4] ->
  exists d0 d1 d2 d3 b,
    _read_from_registers self register ">h" w =
      (inr (to_signed16 (be16 d0 d1), to_signed16 (be16 d2 d3)),
       mkWorld b [byte_of_Z register; d0; d1; d2; d3]
         (log w ++ [Write (i2c_device self) [byte_of_Z register];
                    Sleep (seconds 0.0635);
                    Read (i2c_device self) [d0; d1; d2; d3]])).
Proof.
  intros Hbuf. unfold_driver.
  destruct w as [b0 buf lg]. simpl in *. subst buf.
  destruct (readfrom (i2c_device self)
              (writeto (i2c_device self) [byte_of_Z register] b0))
    as [d0 b1] eqn:E0.
  destruct (readfrom (i2c_device self) b1) as [d1 b2] eqn:E1.
  destruct (readfrom (i2c_device self) b2) as [d2 b3] eqn:E2.
  destruct (readfrom (i2c_device self) b3) as [d3 b4] eqn:E3.
  exists d0, d1, d2, d3, b4.
  rewrite !byte_of_Z_land. simpl.
  rewrite !E0. simpl. rewrite !E1. simpl. rewrite !E2. simpl.
  rewrite !E3. simpl.
  now rewrite <- !app_assoc.
Qed.


(** Whatever the buffer holds, a register read raises no [RuntimeError]:
    the only failures left are those of the buffer itself. *)
Lemma read_from_register_no_runtime_error (self : HDC1080) (register : Z)
    (struct_format : string) (w : World Bus) :
  is_runtime_error (fst (_read_from_register self register struct_format w))
  = false.
Proof.
  unfold_driver. destruct w as [b0 buf lg]. simpl.
  destruct buf as [|x0 buf]; [reflexivity|]. simpl.
  destruct (readfrom_n _ _ _) as [data b1]. simpl.
  destruct (unpack_from _ _ _); reflexivity.
Qed.

Lemma read_from_registers_no_runtime_error (self : HDC1080) (register : Z)
    (struct_format : string) (w : World Bus) :
  is_runtime_error (fst (_read_from_registers self register struct_format w))
  = false.
Proof.
  unfold_driver. destruct w as [b0 buf lg]. simpl.
  destruct buf as [|x0 buf]; [reflexivity|]. simpl.
  destruct (readfrom_n _ _ _) as [data b1]. simpl.
  destruct (unpack_from _ _ 1); [|reflexivity]. simpl.
  destruct (unpack_from _ _ 3); reflexivity.
Qed.

Lemma device_id_run (self : HDC1080) (w : World Bus) :
  exists hi lo b,
    _device_id self w =
      (inr (be16 hi lo),
       mkWorld b (_BUFFER w)
         (log w ++ [Write (i2c_device self) [Byte.xff];
                    Read (i2c_device self) [hi; lo]])).
Proof.
  unfold_driver. destruct w as [b0 buf lg]. simpl.
  destruct (readfrom _ _) as [hi b1]. destruct (readfrom _ b1) as [lo b2].
  exists hi, lo, b2. simpl. now rewrite <- !app_assoc.
Qed.

Lemma init_run_ok (address mode : Z) (w : World Bus) :
  fst (_device_id (mkHDC1080 address mode) w) = inr _HDC1080_DEVICE_ID ->
  exists (i1 i0 r1 r0 t1 t0 h1 h0 m1 m0 : byte) (b : Bus),
    __init__ address mode w =
      (inr (mkHDC1080 address mode),
       mkWorld b (_BUFFER w)
         (log w ++
          [Write address [Byte.xff]; Read address [i1; i0];
           Write address [Byte.x02]; Read address [r1; r0];
           Write address
             [Byte.x02; byte_of_Z (Z.lor (byte_to_Z r1) 128); r0];
           Sleep (seconds 0.015);
           Write address [Byte.x02]; Read address [t1; t0];
           Write address
             [Byte.x02; byte_of_Z (Z.land (byte_to_Z t1) (Z.lnot 4)); t0];
           Write address [Byte.x02]; Read address [h1; h0];
           Write address (Byte.x02 :: humidity_resolution_written h1 h0);
           Write address [Byte.x02]; Read address [m1; m0];
           Write address
             [Byte.x02;
              byte_of_Z (if mode =? 0
                         then Z.land (byte_to_Z m1) (Z.lnot 16)
                         else Z.lor (byte_to_Z m1) 16);
              m0]])).
Proof.
  intros Hid.
  destruct (device_id_run (mkHDC1080 address mode) w) as (i1 & i0 & b & E).
  rewrite E in Hid. simpl in Hid. injection Hid as Hid.
  unfold __init__, bind. rewrite E, Hid. simpl negb. cbv iota.
  unfold set_software_reset, set_temp_resolution,
    set_humidity_resolution, set_operation_mode,
    RWBit_set, RWBits_set, write_then_readinto, sleep, emit,
    i2c_write, i2c_read, ret, raise, bind.
  cbn -[byte_of_Z byte_to_Z Z.land Z.lor Z.lnot humidity_resolution_written
        bytes_of_reg reg_of_bytes].
  repeat (destruct (readfrom _ _) as [? ?];
          cbn -[byte_of_Z byte_to_Z Z.land Z.lor Z.lnot
                humidity_resolution_written bytes_of_reg reg_of_bytes]).
  do 10 eexists. eexists.
  rewrite <- !app_assoc. simpl. 
  change (byte_of_Z _REG_CONF) with Byte.x02.
  reflexivity.
Qed.

Lemma init_run_fail (address mode : Z) (w : World Bus) (id : Z) :
  fst (_device_id (mkHDC1080 address mode) w) = inr id ->
  id <> _HDC1080_DEVICE_ID ->
  __init__ address mode w =
    (inl device_not_found, snd (_device_id (mkHDC1080 address mode) w)).
Proof.
  intros Hid Hne. unfold __init__, bind.
  destruct (_device_id _ w) as [[e|v] w1]; simpl in Hid; [discriminate|].
  injection Hid as ->. apply Z.eqb_neq in Hne. now rewrite Hne.
Qed.

Lemma read_op_not_runtime_error {A B} (m : M Bus A) (f : A -> B)
    (w : World Bus) :
  is_runtime_error (fst (m w)) = false ->
  is_runtime_error (fst (bind m (fun v => ret (f v)) w)) = false.
Proof.
  unfold bind, ret. destruct (m w) as [[e'|v] w1]; simpl; auto.
Qed.

(** C4: in combined mode [temperature] and [humidity] raise the wrong-mode
    error, in single-value mode [temperature_and_humidity] does; in each
    case the world is returned as it was: no bus transfer, no sleep, no
    change to the scratch buffer. *)
Theorem wrong_mode_fails_without_transfer (self : HDC1080) (w : World Bus) :
  (mode self = READ_BOTH_VALUES ->
     temperature self w = (inl wrong_mode_single, w)
     /\ humidity self w = (inl wrong_mode_single, w))
  /\ (mode self = READ_SINGLE_VALUE ->
     temperature_and_humidity self w = (inl wrong_mode_both, w)).
Proof.
  split; intros Hm.
  - unfold temperature, humidity. rewrite Hm. split; reflexivity.
  - unfold temperature_and_humidity. rewrite Hm. reflexivity.
Qed.

(** C5: construction selects register 0xFF and reads two bytes, taken as a
    big-endian unsigned 16-bit value; for every value other than 0x1050 it
    raises the device-not-found error, returns no handle, and the only
    transfers on the bus are that register select and that read: nothing has
    been written to the configuration register. *)
Theorem construction_device_not_found (address mode : Z) (w : World Bus)
    (id : Z) :
  fst (_device_id (mkHDC1080 address mode) w) = inr id ->
  id <> _HDC1080_DEVICE_ID ->
  exists hi lo b,
    id = 256 * byte_to_Z hi + byte_to_Z lo
    /\ __init__ address mode w =
       (inl device_not_found,
        mkWorld b (_BUFFER w)
          (log w ++ [Write address [Byte.xff]; Read address [hi; lo]])).
Proof.
  intros Hid Hne. rewrite (init_run_fail address mode w id Hid Hne).
  destruct (device_id_run (mkHDC1080 address mode) w) as (hi & lo & b & E).
  rewrite E in Hid |- *. simpl in Hid. injection Hid as <-.
  exists hi, lo, b. split; [apply be16_spec | reflexivity].
Qed.


(** C7: each read operation that passes its mode check puts exactly three
    events on the log: the register-select write, a sleep of the duration
    [time.sleep(0.0635)] asks for (the binary64 value nearest to 63.5 ms),
    the read.  The sleep is at least the 6.35 ms of the datasheet. *)
Theorem read_waits_after_register_select (self : HDC1080) (w : World Bus) :
  length (_BUFFER w) = 5%nat ->
  (mode self <> READ_BOTH_VALUES ->
     (exists data,
        log (snd (temperature self w)) =
        log w ++ [Write (i2c_device self) [Byte.x00];
                  Sleep (seconds 0.0635);
                  Read (i2c_device self) data])
     /\ (exists data,
        log (snd (humidity self w)) =
        log w ++ [Write (i2c_device self) [Byte.x01];
                  Sleep (seconds 0.0635);
                  Read (i2c_device self) data]))
  /\ (mode self <> READ_SINGLE_VALUE ->
     exists data,
       log (snd (temperature_and_humidity self w)) =
       log w ++ [Write (i2c_device self) [Byte.x00];
                 Sleep (seconds 0.0635);
                 Read (i2c_device self) data])
  /\ ((635 # 100) * ms <= seconds 0.0635)%Q.
Proof.
  intros Hlen. destruct (length_5 _ Hlen) as (x0 & x1 & x2 & x3 & x4 & Hbuf).
  split; [|split; [|vm_compute; discriminate]]; intros Hm.
  - apply Z.eqb_neq in Hm. unfold temperature, humidity. rewrite Hm.
    destruct (read_from_register_run self _REG_TEMP w _ _ _ _ _ Hbuf)
      as (d0 & d1 & b & E).
    destruct (read_from_register_run self _REG_HUMI w _ _ _ _ _ Hbuf)
      as (e0 & e1 & b' & E').
    unfold bind. rewrite E, E'. split; eexists; reflexivity.
  - apply Z.eqb_neq in Hm. unfold temperature_and_humidity. rewrite Hm.
    destruct (read_from_registers_run self _REG_TEMP w _ _ _ _ _ Hbuf)
      as (d0 & d1 & d2 & d3 & b & E).
    unfold bind. rewrite E. eexists; reflexivity.
Qed.

(** C8: a combined read that passes its mode check writes the one byte 0x00
    (the temperature register) once, sleeps, reads four bytes in one
    transfer, and returns the temperature conversion of the big-endian
    signed 16-bit value of bytes 0 and 1 with the humidity conversion of
    the big-endian signed 16-bit value of bytes 2 and 3. *)
Theorem temperature_and_humidity_transfer (self : HDC1080) (w : World Bus) :
  length (_BUFFER w) = 5%nat ->
  mode self <> READ_SINGLE_VALUE ->
  exists d0 d1 d2 d3,
    log (snd (temperature_and_humidity self w)) =
      log w ++ [Write (i2c_device self) [Byte.x00];
                Sleep (seconds 0.0635);
                Read (i2c_device self) [d0; d1; d2; d3]]
    /\ fst (temperature_and_humidity self w) =
       inr (_convert_to_celsius
              (to_signed16 (256 * byte_to_Z d0 + byte_to_Z d1)),
            _convert_to_relative_humidity
              (to_signed16 (256 * byte_to_Z d2 + byte_to_Z d3))).
Proof.
  intros Hlen Hm.
  destruct (length_5 _ Hlen) as (x0 & x1 & x2 & x3 & x4 & Hbuf).
  apply Z.eqb_neq in Hm. unfold temperature_and_humidity. rewrite Hm.
  destruct (read_from_registers_run self _REG_TEMP w _ _ _ _ _ Hbuf)
    as (d0 & d1 & d2 & d3 & b & E).
  unfold bind. rewrite E. exists d0, d1, d2, d3.
  rewrite <- !be16_spec. split; reflexivity.
Qed.

(** C9, as amended: the scratch buffer is the one class-level buffer that
    all instances share.  After a read on instance [a] that passes its mode
    check, the buffer any instance [b] sees holds the selected register
    address at index 0 followed by the bytes just read, the very bytes of
    the read transfer on the log: two of them for [temperature] and
    [humidity] (indices 3 and 4 keep their bytes), four for
    [temperature_and_humidity]. *)
Theorem scratch_buffer_shared (a b : HDC1080) (w : World Bus) :
  length (_BUFFER w) = 5%nat ->
  (mode a <> READ_BOTH_VALUES ->
     (exists d0 d1,
        log (snd (temperature a w)) =
          log w ++ [Write (i2c_device a) [Byte.x00];
                    Sleep (seconds 0.0635);
                    Read (i2c_device a) [d0; d1]]
        /\ instance_BUFFER b (snd (temperature a w)) =
           [Byte.x00; d0; d1] ++ drop 3 (instance_BUFFER b w))
     /\ (exists d0 d1,
        log (snd (humidity a w)) =
          log w ++ [Write (i2c_device a) [Byte.x01];
                    Sleep (seconds 0.0635);
                    Read (i2c_device a) [d0; d1]]
        /\ instance_BUFFER b (snd (humidity a w)) =
           [Byte.x01; d0; d1] ++ drop 3 (instance_BUFFER b w)))
  /\ (mode a <> READ_SINGLE_VALUE ->
     exists d0 d1 d2 d3,
       log (snd (temperature_and_humidity a w)) =
         log w ++ [Write (i2c_device a) [Byte.x00];
                   Sleep (seconds 0.0635);
                   Read (i2c_device a) [d0; d1; d2; d3]]
       /\ instance_BUFFER b (snd (temperature_and_humidity a w)) =
          [Byte.x00; d0; d1; d2; d3]).
Proof.
  intros Hlen. destruct (length_5 _ Hlen) as (x0 & x1 & x2 & x3 & x4 & Hbuf).
  unfold instance_BUFFER. split; intros Hm.
  - apply Z.eqb_neq in Hm. unfold temperature, humidity. rewrite Hm.
    destruct (read_from_register_run a _REG_TEMP w _ _ _ _ _ Hbuf)
      as (d0 & d1 & b1 & E).
    destruct (read_from_register_run a _REG_HUMI w _ _ _ _ _ Hbuf)
      as (e0 & e1 & b2 & E').
    unfold bind. rewrite E, E', Hbuf.
    split; do 2 eexists; split; reflexivity.
  - apply Z.eqb_neq in Hm. unfold temperature_and_humidity. rewrite Hm.
    destruct (read_from_registers_run a _REG_TEMP w _ _ _ _ _ Hbuf)
      as (d0 & d1 & d2 & d3 & b1 & E).
    unfold bind. rewrite E. do 4 eexists; split; reflexivity.
Qed.

(** C10: each mode check tests one value.  [temperature] and [humidity]
    raise the wrong-mode error exactly when the stored mode is 1,
    [temperature_and_humidity] exactly when it is 0; with any other stored
    mode all three pass the check, go to the bus and return a value.
    Construction stores whatever integer mode it is given. *)
Theorem mode_check_exact :
  (forall (self : HDC1080) (w : World Bus),
     (fst (temperature self w) = inl wrong_mode_single
      <-> mode self = READ_BOTH_VALUES)
     /\ (fst (humidity self w) = inl wrong_mode_single
      <-> mode self = READ_BOTH_VALUES)
     /\ (fst (temperature_and_humidity self w) = inl wrong_mode_both
      <-> mode self = READ_SINGLE_VALUE))
  /\ (forall (self : HDC1080) (w : World Bus),
     length (_BUFFER w) = 5%nat ->
     mode self <> READ_SINGLE_VALUE -> mode self <> READ_BOTH_VALUES ->
     exists t h th d1 d2 d3,
       fst (temperature self w) = inr t
       /\ fst (humidity self w) = inr h
       /\ fst (temperature_and_humidity self w) = inr th
       /\ log (snd (temperature self w)) =
          log w ++ [Write (i2c_device self) [Byte.x00];
                    Sleep (seconds 0.0635); Read (i2c_device self) d1]
       /\ log (snd (humidity self w)) =
          log w ++ [Write (i2c_device self) [Byte.x01];
                    Sleep (seconds 0.0635); Read (i2c_device self) d2]
       /\ log (snd (temperature_and_humidity self w)) =
          log w ++ [Write (i2c_device self) [Byte.x00];
                    Sleep (seconds 0.0635); Read (i2c_device self) d3])
  /\ (forall (address m : Z) (w : World Bus),
     fst (_device_id (mkHDC1080 address m) w) = inr _HDC1080_DEVICE_ID ->
     exists self,
       fst (__init__ address m w) = inr self /\ mode self = m).
Proof.
  split; [|split].
  - intros self w. repeat split.
    + intros Hr. destruct (Z.eq_dec (mode self) READ_BOTH_VALUES) as [|Hne];
        [assumption|]. exfalso.
      apply Z.eqb_neq in Hne. unfold temperature in Hr. rewrite Hne in Hr.
      pose proof (read_op_not_runtime_error
                    (_read_from_register self _REG_TEMP ">h")
                    _convert_to_celsius w
                    (read_from_register_no_runtime_error _ _ _ _)) as Hn.
      cbv beta in Hn. rewrite Hr in Hn. discriminate.
    + intros Hm. unfold temperature. now rewrite Hm.
    + intros Hr. destruct (Z.eq_dec (mode self) READ_BOTH_VALUES) as [|Hne];
        [assumption|]. exfalso.
      apply Z.eqb_neq in Hne. unfold humidity in Hr. rewrite Hne in Hr.
      pose proof (read_op_not_runtime_error
                    (_read_from_register self _REG_HUMI ">h")
                    _convert_to_relative_humidity w
                    (read_from_register_no_runtime_error _ _ _ _)) as Hn.
      cbv beta in Hn. rewrite Hr in Hn. discriminate.
    + intros Hm. unfold humidity. now rewrite Hm.
    + intros Hr. destruct (Z.eq_dec (mode self) READ_SINGLE_VALUE) as [|Hne];
        [assumption|]. exfalso.
      apply Z.eqb_neq in Hne. unfold temperature_and_humidity in Hr.
      rewrite Hne in Hr.
      pose proof (read_op_not_runtime_error
                    (_read_from_registers self _REG_TEMP ">h")
                    (fun values =>
                       (_convert_to_celsius (fst values),
                        _convert_to_relative_humidity (snd values)))
                    w
                    (read_from_registers_no_runtime_error _ _ _ _)) as Hn.
      cbv beta in Hn. rewrite Hr in Hn. discriminate.
    + intros Hm. unfold temperature_and_humidity. now rewrite Hm.
  - intros self w Hlen H0 H1.
    destruct (length_5 _ Hlen) as (x0 & x1 & x2 & x3 & x4 & Hbuf).
    apply Z.eqb_neq in H0, H1.
    unfold temperature, humidity, temperature_and_humidity.
    rewrite H0, H1.
    destruct (read_from_register_run self _REG_TEMP w _ _ _ _ _ Hbuf)
      as (d0 & d1 & b & E).
    destruct (read_from_register_run self _REG_HUMI w _ _ _ _ _ Hbuf)
      as (e0 & e1 & b' & E').
    destruct (read_from_registers_run self _REG_TEMP w _ _ _ _ _ Hbuf)
      as (f0 & f1 & f2 & f3 & b'' & E'').
    unfold bind. rewrite E, E', E''.
    do 6 eexists. repeat split; reflexivity.
  - intros address m w Hid.
    destruct (init_run_ok address m w Hid)
      as (i1 & i0 & r1 & r0 & t1 & t0 & h1 & h0 & m1 & m0 & b & E).
    rewrite E. eexists. split; reflexivity.
Qed.

End Props.

(** ** Concrete runs on the scripted bus *)

(** C1: in combined mode, with the bus answering 0x00 0x00 0xFF 0xFF,
    [temperature_and_humidity] returns -40.0 for the temperature, and for
    the humidity not a value near 100 but -0.00152587890625: the bytes
    0xFF 0xFF are unpacked as the signed value -1. *)
Theorem read_both_ff_ff_is_negative :
  fst (temperature_and_humidity
         (mkHDC1080 _HDC1080_I2CADDR_DEFAULT READ_BOTH_VALUES)
         (initial_world (Bus := MockBus)
            [Byte.x00; Byte.x00; Byte.xff; Byte.xff]))
  = inr ((-40)%float, (-0.00152587890625)%float)
  /\ unpack_from ">h" [Byte.xff; Byte.xff] 0 = Some (-1)
  /\ (_convert_to_relative_humidity (-1) <? 0)%float = true
  /\ _convert_to_relative_humidity 65535 = 99.99847412109375%float.
Proof. repeat split; vm_compute; reflexivity. Qed.

Lemma wrong_mode_fails_without_transfer_witness :
  (temperature (mkHDC1080 64 1) (initial_world (Bus := MockBus) [])
   = (inl wrong_mode_single, initial_world [])
   /\ humidity (mkHDC1080 64 1) (initial_world (Bus := MockBus) [])
   = (inl wrong_mode_single, initial_world []))
  /\ temperature_and_humidity (mkHDC1080 64 0)
       (initial_world (Bus := MockBus) [])
     = (inl wrong_mode_both, initial_world []).
Proof.
  split.
  - apply (proj1 (wrong_mode_fails_without_transfer (Bus := MockBus)
                    (mkHDC1080 64 1) (initial_world []))).
    reflexivity.
  - apply (proj2 (wrong_mode_fails_without_transfer (Bus := MockBus)
                    (mkHDC1080 64 0) (initial_world []))).
    reflexivity.
Defined.

Lemma construction_device_not_found_witness :
  exists hi lo b,
    0x1051 = 256 * byte_to_Z hi + byte_to_Z lo
    /\ __init__ 64 0 (initial_world (Bus := MockBus) [Byte.x10; Byte.x51]) =
       (inl device_not_found,
        mkWorld b initial_BUFFER
          ([] ++ [Write 64 [Byte.xff]; Read 64 [hi; lo]])).
Proof.
  apply (construction_device_not_found (Bus := MockBus) 64 0
           (initial_world [Byte.x10; Byte.x51]) 0x1051).
  - reflexivity.
  - unfold _HDC1080_DEVICE_ID. lia.
Defined.




Lemma read_waits_after_register_select_witness :
  exists data,
    log (snd (temperature (mkHDC1080 64 0)
                (initial_world (Bus := MockBus) [Byte.x66; Byte.x40]))) =
    [] ++ [Write 64 [Byte.x00]; Sleep (seconds 0.0635); Read 64 data].
Proof.
  apply (proj1 (read_waits_after_register_select (Bus := MockBus)
                  (mkHDC1080 64 0) (initial_world [Byte.x66; Byte.x40])
                  ltac:(reflexivity))).
  unfold READ_BOTH_VALUES. simpl. lia.
Defined.

Lemma temperature_and_humidity_transfer_witness :
  exists d0 d1 d2 d3,
    log (snd (temperature_and_humidity (mkHDC1080 64 1)
                (initial_world (Bus := MockBus)
                   [Byte.x66; Byte.x40; Byte.x80; Byte.x00]))) =
      [] ++ [Write 64 [Byte.x00]; Sleep (seconds 0.0635);
             Read 64 [d0; d1; d2; d3]]
    /\ fst (temperature_and_humidity (mkHDC1080 64 1)
              (initial_world (Bus := MockBus)
                 [Byte.x66; Byte.x40; Byte.x80; Byte.x00])) =
       inr (_convert_to_celsius
              (to_signed16 (256 * byte_to_Z d0 + byte_to_Z d1)),
            _convert_to_relative_humidity
              (to_signed16 (256 * byte_to_Z d2 + byte_to_Z d3))).
Proof.
  apply (temperature_and_humidity_transfer (Bus := MockBus) (mkHDC1080 64 1)
           (initial_world [Byte.x66; Byte.x40; Byte.x80; Byte.x00])).
  - reflexivity.
  - unfold READ_SINGLE_VALUE. simpl. lia.
Defined.

(** C9, as stated, fails: two instances at different addresses, and a
    temperature read on the first changes the buffer the second sees. *)
Lemma scratch_buffer_not_per_instance :
  ~ (forall (a b : HDC1080) (w : World MockBus),
       a <> b ->
       instance_BUFFER b (snd (temperature a w)) = instance_BUFFER b w).
Proof.
  intros Hframe.
  specialize (Hframe (mkHDC1080 0x40 0) (mkHDC1080 0x41 0)
                (initial_world [Byte.x66; Byte.x40])).
  assert (Hne : mkHDC1080 0x40 0 <> mkHDC1080 0x41 0) by discriminate.
  specialize (Hframe Hne). vm_compute in Hframe. discriminate.
Qed.

Lemma scratch_buffer_shared_witness :
  exists d0 d1,
    log (snd (temperature (mkHDC1080 0x40 0)
                (initial_world (Bus := MockBus) [Byte.x66; Byte.x40]))) =
      [] ++ [Write 0x40 [Byte.x00]; Sleep (seconds 0.0635);
             Read 0x40 [d0; d1]]
    /\ instance_BUFFER (mkHDC1080 0x41 0)
         (snd (temperature (mkHDC1080 0x40 0)
                 (initial_world (Bus := MockBus) [Byte.x66; Byte.x40]))) =
       [Byte.x00; d0; d1]
       ++ drop 3 (instance_BUFFER (mkHDC1080 0x41 0)
                    (initial_world (Bus := MockBus) [Byte.x66; Byte.x40])).
Proof.
  apply (proj1 (scratch_buffer_shared (Bus := MockBus)
                  (mkHDC1080 0x40 0) (mkHDC1080 0x41 0)
                  (initial_world [Byte.x66; Byte.x40]) ltac:(reflexivity))).
  unfold READ_BOTH_VALUES. simpl. lia.
Defined.

Lemma mode_check_exact_witness :
  exists t h th d1 d2 d3,
    fst (temperature (mkHDC1080 64 2)
           (initial_world (Bus := MockBus) [Byte.x66; Byte.x40])) = inr t
    /\ fst (humidity (mkHDC1080 64 2)
              (initial_world (Bus := MockBus) [Byte.x66; Byte.x40])) = inr h
    /\ fst (temperature_and_humidity (mkHDC1080 64 2)
              (initial_world (Bus := MockBus) [Byte.x66; Byte.x40])) = inr th
    /\ log (snd (temperature (mkHDC1080 64 2)
                   (initial_world (Bus := MockBus) [Byte.x66; Byte.x40]))) =
       [] ++ [Write 64 [Byte.x00]; Sleep (seconds 0.0635); Read 64 d1]
    /\ log (snd (humidity (mkHDC1080 64 2)
                   (initial_world (Bus := MockBus) [Byte.x66; Byte.x40]))) =
       [] ++ [Write 64 [Byte.x01]; Sleep (seconds 0.0635); Read 64 d2]
    /\ log (snd (temperature_and_humidity (mkHDC1080 64 2)
                   (initial_world (Bus := MockBus) [Byte.x66; Byte.x40]))) =
       [] ++ [Write 64 [Byte.x00]; Sleep (seconds 0.0635); Read 64 d3].
Proof.
  apply (proj1 (proj2 (mode_check_exact (Bus := MockBus)))
           (mkHDC1080 64 2) (initial_world [Byte.x66; Byte.x40])).
  - reflexivity.
  - unfold READ_SINGLE_VALUE. simpl. lia.
  - unfold READ_BOTH_VALUES. simpl. lia.
Defined.

(** * Further properties of the driver *)

(** ** The scratch buffer keeps its length *)

Section Frames.
Context {Bus : Type} `{I2C Bus}.

Lemma readfrom_n_length (address : Z) (n : nat) (b : Bus) :
  length (fst (readfrom_n address n b)) = n.
Proof.
  revert b. induction n as [|n IH]; intros b; [reflexivity|].
  simpl. destruct (readfrom address b) as [x b1].
  specialize (IH b1). destruct (readfrom_n address n b1) as [xs b2].
  simpl in *. now rewrite IH.
Qed.

Lemma keeps_ret {A} (a : A) : keeps_BUFFER_length (Bus := Bus) (ret a).
Proof. intros w. reflexivity. Qed.

Lemma keeps_raise {A} (e : exn) :
  keeps_BUFFER_length (Bus := Bus) (A := A) (raise e).
Proof. intros w. reflexivity. Qed.

Lemma keeps_bind {A B} (m : M Bus A) (k : A -> M Bus B) :
  keeps_BUFFER_length m -> (forall a, keeps_BUFFER_length (k a)) ->
  keeps_BUFFER_length (bind m k).
Proof.
  intros Hm Hk w. unfold bind. specialize (Hm w).
  destruct (m w) as [[e|a] w1]; simpl in *; [assumption|].
  now rewrite (Hk a w1).
Qed.

Lemma keeps_sleep (seconds : Q) :
  keeps_BUFFER_length (Bus := Bus) (sleep seconds).
Proof. intros w. reflexivity. Qed.

Lemma keeps_i2c_write (address : Z) (data : list byte) :
  keeps_BUFFER_length (i2c_write address data).
Proof. intros w. reflexivity. Qed.

Lemma keeps_i2c_read (address : Z) (n : nat) :
  keeps_BUFFER_length (i2c_read address n).
Proof.
  intros w. unfold i2c_read. now destruct (readfrom_n address n (bus w)).
Qed.

Lemma keeps_write_then_readinto (address : Z) (out : list byte) (n : nat) :
  keeps_BUFFER_length (write_then_readinto address out n).
Proof.
  apply keeps_bind; [apply keeps_i2c_write|]. intros _. apply keeps_i2c_read.
Qed.

Lemma keeps_BUFFER_setitem (i : nat) (v : byte) :
  keeps_BUFFER_length (Bus := Bus) (BUFFER_setitem i v).
Proof.
  intros w. unfold BUFFER_setitem, bind, get_BUFFER, put_BUFFER, raise.
  simpl. destruct (i <? length (_BUFFER w))%nat; simpl; [|reflexivity].
  apply length_insert.
Qed.

Lemma keeps_BUFFER_getitem (i : nat) :
  keeps_BUFFER_length (Bus := Bus) (BUFFER_getitem i).
Proof.
  intros w. unfold BUFFER_getitem, bind, get_BUFFER. simpl.
  now destruct (_BUFFER w !! i).
Qed.

Lemma keeps_write_BUFFER (address : Z) (e : nat) :
  keeps_BUFFER_length (write_BUFFER address e).
Proof. intros w. reflexivity. Qed.

Lemma keeps_unpack_BUFFER (struct_format : string) (offset : nat) :
  keeps_BUFFER_length (Bus := Bus) (unpack_BUFFER struct_format offset).
Proof.
  intros w. unfold unpack_BUFFER, bind, get_BUFFER. simpl.
  now destruct (unpack_from struct_format (_BUFFER w) offset).
Qed.

Lemma keeps_readinto_BUFFER (address : Z) (s : nat) (e : option nat) :
  keeps_BUFFER_length (readinto_BUFFER address s e).
Proof.
  intros w. unfold readinto_BUFFER, bind, get_BUFFER, put_BUFFER, i2c_read.
  simpl.
  pose proof (readfrom_n_length address
    (Nat.min (default (length (_BUFFER w)) e) (length (_BUFFER w))
     - Nat.min s (length (_BUFFER w))) (bus w)) as Hn.
  destruct (readfrom_n _ _ _) as [data b]. simpl in *.
  rewrite !length_app, length_take, length_drop. lia.
Qed.

(** One step of a frame proof: a primitive is closed by its own lemma, a
    sequence is split at its first operation. *)
Ltac keeps_step :=
  first
    [ apply keeps_ret | apply keeps_raise | apply keeps_sleep
    | apply keeps_BUFFER_setitem | apply keeps_BUFFER_getitem
    | apply keeps_write_BUFFER | apply keeps_readinto_BUFFER
    | apply keeps_unpack_BUFFER | apply keeps_write_then_readinto
    | apply keeps_i2c_write | apply keeps_i2c_read
    | apply keeps_bind; [|intros ?] ].

Lemma keeps_RWBit_set (register_address bit : Z) (register_width : nat)
    (obj : HDC1080) (value : Z) :
  keeps_BUFFER_length
    (RWBit_set register_address bit register_width obj value).
Proof.
  unfold RWBit_set. repeat keeps_step.
Qed.

Lemma keeps_RWBits_set (num_bits register_address lowest_bit : Z)
    (register_width : nat) (obj : HDC1080) (value : Z) :
  keeps_BUFFER_length
    (RWBits_set num_bits register_address lowest_bit register_width obj
       value).
Proof.
  unfold RWBits_set. repeat keeps_step.
Qed.

Lemma keeps_read_from_register (self : HDC1080) (register : Z)
    (struct_format : string) :
  keeps_BUFFER_length (_read_from_register self register struct_format).
Proof.
  unfold _read_from_register.
  repeat keeps_step.
Qed.

Lemma keeps_read_from_registers (self : HDC1080) (register : Z)
    (struct_format : string) :
  keeps_BUFFER_length (_read_from_registers self register struct_format).
Proof.
  unfold _read_from_registers.
  repeat keeps_step.
Qed.

(** X1: no operation of the driver changes the length of the scratch
    buffer, whatever the world it starts in and whether it returns or
    raises; the buffer starts out five bytes long. *)
Theorem scratch_buffer_length_invariant :
  (forall b : Bus, length (_BUFFER (initial_world b)) = 5%nat)
  /\ (forall address mode, keeps_BUFFER_length (__init__ address mode))
  /\ (forall self,
        keeps_BUFFER_length (temperature self)
        /\ keeps_BUFFER_length (humidity self)
        /\ keeps_BUFFER_length (temperature_and_humidity self)
        /\ keeps_BUFFER_length (_debug_config_register self)).
Proof.
  split; [reflexivity|]. split.
  - intros address mode. unfold __init__.
    apply keeps_bind.
    + unfold _device_id, ROUnaryStruct_get.
      apply keeps_bind; [apply keeps_write_then_readinto|].
      intros data. destruct (unpack_from _ _ _);
        [apply keeps_ret | apply keeps_raise].
    + intros id. destruct (negb _); [apply keeps_raise|].
      unfold set_software_reset, set_temp_resolution,
        set_humidity_resolution, set_operation_mode.
      repeat first [apply keeps_RWBit_set | apply keeps_RWBits_set
                   | keeps_step].
  - intros self. repeat split.
    + unfold temperature. destruct (_ =? _); [apply keeps_raise|].
      apply keeps_bind; [apply keeps_read_from_register|].
      intros v. apply keeps_ret.
    + unfold humidity. destruct (_ =? _); [apply keeps_raise|].
      apply keeps_bind; [apply keeps_read_from_register|].
      intros v. apply keeps_ret.
    + unfold temperature_and_humidity. destruct (_ =? _);
        [apply keeps_raise|].
      apply keeps_bind; [apply keeps_read_from_registers|].
      intros v. apply keeps_ret.
    + unfold _debug_config_register.
      repeat keeps_step.
Qed.

End Frames.

(** ** What a reading can be *)

Lemma to_signed16_range (u : Z) :
  0 <= u <= 65535 -> -32768 <= to_signed16 u <= 32767.
Proof.
  intros Hu. unfold to_signed16.
  change (2 ^ 15) with 32768. change (2 ^ 16) with 65536.
  destruct (u <? 32768) eqn:E; [apply Z.ltb_lt in E | apply Z.ltb_ge in E];
    lia.
Qed.

Lemma denotes_Qeq (f : float) (q q' : Q) :
  (q == q')%Q -> denotes f q = true -> denotes f q' = true.
Proof.
  unfold denotes. intros Hq. destruct (float_to_Q f) as [x|]; [|easy].
  rewrite !Qeq_bool_iff. intros Hx. now rewrite Hx.
Qed.

Lemma celsius_Q_range (r : Z) :
  -32768 <= r <= 32767 ->
  (- (245 # 2) <= celsius_Q r)%Q /\ (celsius_Q r < 85 # 2)%Q.
Proof.
  intros Hr. unfold celsius_Q, Qle, Qlt. simpl. lia.
Qed.

Lemma relative_humidity_Q_range (r : Z) :
  -32768 <= r <= 32767 ->
  (- (50) <= relative_humidity_Q r)%Q /\ (relative_humidity_Q r < 50)%Q.
Proof.
  intros Hr. unfold relative_humidity_Q, Qle, Qlt. simpl. lia.
Qed.

Lemma celsius_Q_wrap (u : Z) :
  (celsius_Q (u - 65536) == celsius_Q u - 165)%Q.
Proof.
  unfold celsius_Q, Qeq. simpl. lia.
Qed.

Lemma relative_humidity_Q_wrap (u : Z) :
  (relative_humidity_Q (u - 65536) == relative_humidity_Q u - 100)%Q.
Proof.
  unfold relative_humidity_Q, Qeq. simpl. lia.
Qed.

Lemma reading_exact_in_range (hi lo : byte) :
  let raw := to_signed16 (be16 hi lo) in
  denotes (_convert_to_celsius raw) (celsius_Q raw) = true
  /\ denotes (_convert_to_relative_humidity raw) (relative_humidity_Q raw)
     = true
  /\ -32768 <= raw <= 32767.
Proof.
  intros raw.
  pose proof (to_signed16_range _ (be16_range hi lo)) as Hr. fold raw in Hr.
  pose proof (conversions_exact_16bit raw ltac:(lia)) as E.
  apply andb_true_iff in E. tauto.
Qed.

Section Readings.
Context {Bus : Type} `{I2C Bus}.

(** X2: a single-value read that passes its mode check returns the
    conversion of the big-endian signed 16-bit value of the two bytes it
    read: [temperature] from register 0x00, [humidity] from register
    0x01. *)
Theorem single_read_result (self : HDC1080) (w : World Bus) :
  length (_BUFFER w) = 5%nat ->
  mode self <> READ_BOTH_VALUES ->
  (exists d0 d1,
     log (snd (temperature self w)) =
       log w ++ [Write (i2c_device self) [Byte.x00];
                 Sleep (seconds 0.0635);
                 Read (i2c_device self) [d0; d1]]
     /\ fst (temperature self w) =
        inr (_convert_to_celsius
               (to_signed16 (256 * byte_to_Z d0 + byte_to_Z d1))))
  /\ (exists d0 d1,
     log (snd (humidity self w)) =
       log w ++ [Write (i2c_device self) [Byte.x01];
                 Sleep (seconds 0.0635);
                 Read (i2c_device self) [d0; d1]]
     /\ fst (humidity self w) =
        inr (_convert_to_relative_humidity
               (to_signed16 (256 * byte_to_Z d0 + byte_to_Z d1)))).
Proof.
  intros Hlen Hm.
  destruct (length_5 _ Hlen) as (x0 & x1 & x2 & x3 & x4 & Hbuf).
  apply Z.eqb_neq in Hm. unfold temperature, humidity. rewrite Hm.
  destruct (read_from_register_run self _REG_TEMP w _ _ _ _ _ Hbuf)
    as (d0 & d1 & b & E).
  destruct (read_from_register_run self _REG_HUMI w _ _ _ _ _ Hbuf)
    as (e0 & e1 & b' & E').
  unfold bind. rewrite E, E'. split.
  - exists d0, d1. rewrite <- be16_spec. split; reflexivity.
  - exists e0, e1. rewrite <- be16_spec. split; reflexivity.
Qed.

(** X3: because the raw value is read as a signed short, every temperature
    the driver returns lies in [-122.5, 42.5) and every relative humidity in
    [-50, 50), in single-value and in combined mode alike. *)
Theorem reading_ranges (self : HDC1080) (w : World Bus) :
  length (_BUFFER w) = 5%nat ->
  (mode self <> READ_BOTH_VALUES ->
     exists t h qt qh,
       fst (temperature self w) = inr t
       /\ fst (humidity self w) = inr h
       /\ denotes t qt = true /\ denotes h qh = true
       /\ (- (245 # 2) <= qt)%Q /\ (qt < 85 # 2)%Q
       /\ (- (50) <= qh)%Q /\ (qh < 50)%Q)
  /\ (mode self <> READ_SINGLE_VALUE ->
     exists t h qt qh,
       fst (temperature_and_humidity self w) = inr (t, h)
       /\ denotes t qt = true /\ denotes h qh = true
       /\ (- (245 # 2) <= qt)%Q /\ (qt < 85 # 2)%Q
       /\ (- (50) <= qh)%Q /\ (qh < 50)%Q).
Proof.
  intros Hlen.
  destruct (length_5 _ Hlen) as (x0 & x1 & x2 & x3 & x4 & Hbuf).
  split; intros Hm; apply Z.eqb_neq in Hm.
  - unfold temperature, humidity. rewrite Hm.
    destruct (read_from_register_run self _REG_TEMP w _ _ _ _ _ Hbuf)
      as (d0 & d1 & b & E).
    destruct (read_from_register_run self _REG_HUMI w _ _ _ _ _ Hbuf)
      as (e0 & e1 & b' & E').
    unfold bind. rewrite E, E'. simpl.
    destruct (reading_exact_in_range d0 d1) as (Ht & _ & Hrt).
    destruct (reading_exact_in_range e0 e1) as (_ & Hh & Hrh).
    destruct (celsius_Q_range _ Hrt).
    destruct (relative_humidity_Q_range _ Hrh).
    do 4 eexists. repeat split; eassumption.
  - unfold temperature_and_humidity. rewrite Hm.
    destruct (read_from_registers_run self _REG_TEMP w _ _ _ _ _ Hbuf)
      as (d0 & d1 & d2 & d3 & b & E).
    unfold bind. rewrite E. simpl.
    destruct (reading_exact_in_range d0 d1) as (Ht & _ & Hrt).
    destruct (reading_exact_in_range d2 d3) as (_ & Hh & Hrh).
    destruct (celsius_Q_range _ Hrt).
    destruct (relative_humidity_Q_range _ Hrh).
    do 4 eexists. repeat split; eassumption.
Qed.

End Readings.

(** X4: the signed reading against the unsigned one.  Wherever the format
    [">H"] yields the raw value [u], the format [">h"] the driver uses
    yields a raw value whose conversions are the datasheet formulas at [u]
    when [u < 32768], and otherwise exactly 165 degrees, respectively 100
    percent, lower. *)
Theorem signed_reading_offset (buffer : list byte) (offset : nat) (u : Z) :
  unpack_from ">H" buffer offset = Some u ->
  exists s,
    unpack_from ">h" buffer offset = Some s
    /\ denotes (_convert_to_celsius s)
         (celsius_Q u - (if u <? 32768 then 0 else 165))%Q = true
    /\ denotes (_convert_to_relative_humidity s)
         (relative_humidity_Q u - (if u <? 32768 then 0 else 100))%Q = true.
Proof.
  unfold unpack_from.
  destruct (buffer !! offset) as [hi|]; [|discriminate].
  destruct (buffer !! S offset) as [lo|]; [|discriminate].
  simpl. intros [= <-]. eexists. split; [reflexivity|].
  destruct (reading_exact_in_range hi lo) as (Ht & Hh & _).
  unfold to_signed16 in *.
  change (2 ^ 15) with 32768 in *. change (2 ^ 16) with 65536 in *.
  destruct (be16 hi lo <? 32768).
  - split; [eapply denotes_Qeq; [|exact Ht] | eapply denotes_Qeq; [|exact Hh]];
      unfold Qminus; rewrite Qplus_0_r; reflexivity.
  - split; [eapply denotes_Qeq; [|exact Ht] | eapply denotes_Qeq; [|exact Hh]].
    + apply celsius_Q_wrap.
    + apply relative_humidity_Q_wrap.
Qed.

(** ** Construction *)

(** What each configuration write leaves in the 16-bit register, against
    the value read just before it. *)
Lemma reset_write_value (hi lo : byte) :
  be16 (byte_of_Z (Z.lor (byte_to_Z hi) 128)) lo
  = Z.lor (be16 hi lo) 0x8000.
Proof.
  apply Z.eqb_eq.
  apply (forall_byte_pairs (fun h l =>
    be16 (byte_of_Z (Z.lor (byte_to_Z h) 128)) l
    =? Z.lor (be16 h l) 0x8000)).
  vm_compute. reflexivity.
Qed.

Lemma temp_resolution_write_value (hi lo : byte) :
  be16 (byte_of_Z (Z.land (byte_to_Z hi) (Z.lnot 4))) lo
  = Z.land (be16 hi lo) (Z.lnot 0x0400).
Proof.
  apply Z.eqb_eq.
  apply (forall_byte_pairs (fun h l =>
    be16 (byte_of_Z (Z.land (byte_to_Z h) (Z.lnot 4))) l
    =? Z.land (be16 h l) (Z.lnot 0x0400))).
  vm_compute. reflexivity.
Qed.

Lemma humidity_resolution_write_value (hi lo : byte) :
  exists w1 w0,
    humidity_resolution_written hi lo = [w1; w0]
    /\ be16 w1 w0 = Z.land (be16 hi lo) (Z.lnot 0x0300).
Proof.
  pose (P := fun h l =>
            match humidity_resolution_written h l with
            | [w1; w0] => be16 w1 w0 =? Z.land (be16 h l) (Z.lnot 0x0300)
            | _ => false
            end).
  assert (E : P hi lo = true).
  { apply forall_byte_pairs. vm_compute. reflexivity. }
  subst P. cbv beta in E.
  destruct (humidity_resolution_written hi lo) as [|w1 [|w0 [|? ?]]];
    try discriminate.
  exists w1, w0. split; [reflexivity|]. now apply Z.eqb_eq.
Qed.

Lemma operation_mode_write_value (mode : Z) (hi lo : byte) :
  be16 (byte_of_Z (if mode =? 0
                   then Z.land (byte_to_Z hi) (Z.lnot 16)
                   else Z.lor (byte_to_Z hi) 16)) lo
  = if mode =? 0 then Z.land (be16 hi lo) (Z.lnot 0x1000)
    else Z.lor (be16 hi lo) 0x1000.
Proof.
  destruct (mode =? 0); apply Z.eqb_eq.
  - apply (forall_byte_pairs (fun h l =>
      be16 (byte_of_Z (Z.land (byte_to_Z h) (Z.lnot 16))) l
      =? Z.land (be16 h l) (Z.lnot 0x1000))).
    vm_compute. reflexivity.
  - apply (forall_byte_pairs (fun h l =>
      be16 (byte_of_Z (Z.lor (byte_to_Z h) 16)) l
      =? Z.lor (be16 h l) 0x1000)).
    vm_compute. reflexivity.
Qed.

Section Construction.
Context {Bus : Type} `{I2C Bus}.

(** X5: construction never touches the scratch buffer, whether it returns
    or raises; and when it returns a handle, the device-ID register read
    0x1050 and the handle carries the address and the mode it was given. *)
Theorem construction_frame (address mode : Z) (w : World Bus) :
  _BUFFER (snd (__init__ address mode w)) = _BUFFER w
  /\ (forall self,
        fst (__init__ address mode w) = inr self ->
        self = mkHDC1080 address mode
        /\ fst (_device_id (mkHDC1080 address mode) w)
           = inr _HDC1080_DEVICE_ID).
Proof.
  destruct (device_id_run (mkHDC1080 address mode) w) as (hi & lo & b & E).
  destruct (Z.eq_dec (be16 hi lo) _HDC1080_DEVICE_ID) as [Heq|Hne].
  - assert (Hid : fst (_device_id (mkHDC1080 address mode) w)
                  = inr _HDC1080_DEVICE_ID) by (rewrite E; simpl; congruence).
    destruct (init_run_ok address mode w Hid)
      as (i1 & i0 & r1 & r0 & t1 & t0 & h1 & h0 & m1 & m0 & b' & E').
    rewrite E'. simpl. split; [reflexivity|].
    intros self [= <-]. split; [reflexivity | exact Hid].
  - assert (Hid : fst (_device_id (mkHDC1080 address mode) w)
                  = inr (be16 hi lo)) by (rewrite E; reflexivity).
    rewrite (init_run_fail address mode w _ Hid Hne), E. simpl.
    split; [reflexivity|]. intros self [=].
Qed.

(** X6: every configuration write of a successful construction is a
    read-modify-write that changes its own bits only: against the value
    read just before it, the reset write sets bit 15, the
    temperature-resolution write clears bit 10, the humidity-resolution
    write clears bits 9 and 8, the operation-mode write sets or clears bit
    12, and all other bits are written back as read. *)
Theorem construction_keeps_other_bits (address mode : Z) (w : World Bus) :
  fst (_device_id (mkHDC1080 address mode) w) = inr _HDC1080_DEVICE_ID ->
  exists (i1 i0 r1 r0 t1 t0 h1 h0 m1 m0 : byte)
         (wr1 wr0 wt1 wt0 wh1 wh0 wm1 wm0 : byte),
    log (snd (__init__ address mode w)) =
       log w ++
       [Write address [Byte.xff]; Read address [i1; i0];
        Write address [Byte.x02]; Read address [r1; r0];
        Write address [Byte.x02; wr1; wr0];
        Sleep (seconds 0.015);
        Write address [Byte.x02]; Read address [t1; t0];
        Write address [Byte.x02; wt1; wt0];
        Write address [Byte.x02]; Read address [h1; h0];
        Write address [Byte.x02; wh1; wh0];
        Write address [Byte.x02]; Read address [m1; m0];
        Write address [Byte.x02; wm1; wm0]]
    /\ be16 wr1 wr0 = Z.lor (be16 r1 r0) 0x8000
    /\ be16 wt1 wt0 = Z.land (be16 t1 t0) (Z.lnot 0x0400)
    /\ be16 wh1 wh0 = Z.land (be16 h1 h0) (Z.lnot 0x0300)
    /\ be16 wm1 wm0 = (if mode =? 0
                       then Z.land (be16 m1 m0) (Z.lnot 0x1000)
                       else Z.lor (be16 m1 m0) 0x1000).
Proof.
  intros Hid.
  destruct (init_run_ok address mode w Hid)
    as (i1 & i0 & r1 & r0 & t1 & t0 & h1 & h0 & m1 & m0 & b & E).
  destruct (humidity_resolution_write_value h1 h0) as (wh1 & wh0 & Eh & Hh).
  rewrite Eh in E. rewrite E.
  exists i1, i0, r1, r0, t1, t0, h1, h0, m1, m0.
  do 8 eexists. split; [reflexivity|].
  split; [apply reset_write_value|].
  split; [apply temp_resolution_write_value|].
  split; [exact Hh|].
  apply operation_mode_write_value.
Qed.

(** X9: a driver constructed with the default arguments on a device that
    answers with the right ID is at address 0x40 in single-value mode: on
    the world construction leaves behind, [temperature] and [humidity]
    return a value, and [temperature_and_humidity] raises the wrong-mode
    error without touching that world. *)
Theorem default_driver_reads (w : World Bus) :
  length (_BUFFER w) = 5%nat ->
  fst (_device_id (mkHDC1080 _HDC1080_I2CADDR_DEFAULT READ_SINGLE_VALUE) w)
  = inr _HDC1080_DEVICE_ID ->
  exists self w1 t h,
    HDC1080_default w = (inr self, w1)
    /\ i2c_device self = 0x40 /\ mode self = 0
    /\ fst (temperature self w1) = inr t
    /\ fst (humidity self w1) = inr h
    /\ temperature_and_humidity self w1 = (inl wrong_mode_both, w1).
Proof.
  intros Hlen Hid. unfold HDC1080_default.
  destruct (init_run_ok _ _ w Hid)
    as (i1 & i0 & r1 & r0 & t1 & t0 & h1 & h0 & m1 & m0 & b & E).
  rewrite E.
  destruct (length_5 _ Hlen) as (x0 & x1 & x2 & x3 & x4 & Hbuf).
  match goal with |- context [(inr ?s, ?w')] =>
    set (self := s); set (w1 := w')
  end.
  assert (Hbuf1 : _BUFFER w1 = [x0; x1; x2; x3; x4]) by exact Hbuf.
  destruct (read_from_register_run self _REG_TEMP w1 _ _ _ _ _ Hbuf1)
    as (d0 & d1 & b1 & E1).
  destruct (read_from_register_run self _REG_HUMI w1 _ _ _ _ _ Hbuf1)
    as (e0 & e1 & b2 & E2).
  exists self, w1.
  unfold temperature, humidity, temperature_and_humidity, bind.
  replace (mode self =? READ_BOTH_VALUES) with false by reflexivity.
  replace (mode self =? READ_SINGLE_VALUE) with true by reflexivity.
  rewrite E1, E2.
  do 2 eexists. repeat split; reflexivity.
Qed.

End Construction.

(** ** The debugging helper *)

Lemma parse_bin_from_zeros (k : nat) (s : string) :
  parse_bin_from 0 (zeros k ++ s) = parse_bin_from 0 s.
Proof. induction k as [|k IH]; [reflexivity|]. simpl. exact IH. Qed.

Lemma parse_bin_from_digits (p : positive) (acc : Z) (rest : string) :
  parse_bin_from acc (bin_digits p rest)
  = parse_bin_from (acc * 2 ^ Z.of_nat (Pos.size_nat p) + Z.pos p) rest.
Proof.
  revert rest. induction p as [p IH|p IH|]; intros rest.
  - simpl bin_digits. rewrite IH. simpl parse_bin_from.
    f_equal. rewrite (Pos2Z.inj_xI p).
    change (Pos.size_nat p~1) with (S (Pos.size_nat p)).
    rewrite Nat2Z.inj_succ, Z.pow_succ_r by lia. lia.
  - simpl bin_digits. rewrite IH. simpl parse_bin_from.
    f_equal. rewrite (Pos2Z.inj_xO p).
    change (Pos.size_nat p~0) with (S (Pos.size_nat p)).
    rewrite Nat2Z.inj_succ, Z.pow_succ_r by lia. lia.
  - simpl. f_equal. lia.
Qed.

Lemma bin_digits_nonempty (p : positive) (rest : string) :
  bin_digits p rest <> EmptyString.
Proof.
  revert rest. induction p as [p IH|p IH|]; intros rest; simpl;
    [apply IH | apply IH | discriminate].
Qed.

(** X8: the binary line is a faithful print of the number: for every
    [n >= 0], reading ["{0:08b}".format(n)] back in base 2 gives [n]; and for
    a byte the line is exactly eight characters long. *)
Theorem format_08b_round_trip :
  (forall n, 0 <= n -> parse_bin (format_08b n) = Some n)
  /\ (forall b : byte, String.length (format_08b (byte_to_Z b)) = 8%nat).
Proof.
  split.
  - intros n Hn. unfold format_08b.
    assert (Hparse : forall digits,
              digits <> EmptyString ->
              parse_bin (zeros (8 - String.length digits) ++ digits)
              = parse_bin_from 0 digits).
    { intros digits Hne. unfold parse_bin.
      destruct (zeros (8 - String.length digits) ++ digits)%string eqn:E.
      - destruct (8 - String.length digits)%nat; [|discriminate].
        simpl in E. contradiction.
      - rewrite <- E. apply parse_bin_from_zeros. }
    destruct n as [|p|p]; [reflexivity| |lia].
    rewrite Hparse by apply bin_digits_nonempty.
    rewrite parse_bin_from_digits. reflexivity.
  - intros b. destruct b; reflexivity.
Qed.

Lemma format_08b_round_trip_witness :
  parse_bin (format_08b 300) = Some 300.
Proof. apply (proj1 format_08b_round_trip 300). lia. Defined.

Section DebugRun.
Context {Bus : Type} `{I2C Bus}.

(** X7: [_debug_config_register] checks no mode.  On a five-byte scratch
    buffer it selects register 0x02, sleeps as [time.sleep(0.0635)] asks,
    reads two bytes in one transfer, prints each of them as a line of eight
    binary digits, and
    leaves the register address and the two bytes in the first three
    positions of the scratch buffer. *)
Theorem debug_config_register_run (self : HDC1080) (w : World Bus) :
  length (_BUFFER w) = 5%nat ->
  exists d0 d1,
    fst (_debug_config_register self w)
    = inr [format_08b (byte_to_Z d0); format_08b (byte_to_Z d1)]
    /\ log (snd (_debug_config_register self w)) =
       log w ++ [Write (i2c_device self) [Byte.x02];
                 Sleep (seconds 0.0635);
                 Read (i2c_device self) [d0; d1]]
    /\ _BUFFER (snd (_debug_config_register self w))
       = [Byte.x02; d0; d1] ++ drop 3 (_BUFFER w).
Proof.
  intros Hlen.
  destruct (length_5 _ Hlen) as (x0 & x1 & x2 & x3 & x4 & Hbuf).
  unfold _debug_config_register, BUFFER_setitem, write_BUFFER,
    readinto_BUFFER, BUFFER_getitem, get_BUFFER, put_BUFFER, sleep, emit,
    i2c_write, i2c_read, ret, raise, bind.
  destruct w as [b0 buf lg]. simpl in *. subst buf.
  destruct (readfrom (i2c_device self)
              (writeto (i2c_device self) [Byte.x02] b0))
    as [d0 b1] eqn:E0.
  destruct (readfrom (i2c_device self) b1) as [d1 b2] eqn:E1.
  exists d0, d1.
  change (byte_of_Z (Z.land _REG_CONF 255)) with Byte.x02.
  simpl. rewrite !E0. simpl. rewrite !E1. simpl.
  rewrite <- !app_assoc. repeat split; reflexivity.
Qed.

End DebugRun.

(** ** Concrete runs for the further properties *)

Lemma single_read_result_witness :
  exists d0 d1,
    log (snd (temperature (mkHDC1080 64 0)
                (initial_world (Bus := MockBus) [Byte.x66; Byte.x40]))) =
      [] ++ [Write 64 [Byte.x00]; Sleep (seconds 0.0635); Read 64 [d0; d1]]
    /\ fst (temperature (mkHDC1080 64 0)
              (initial_world (Bus := MockBus) [Byte.x66; Byte.x40])) =
       inr (_convert_to_celsius
              (to_signed16 (256 * byte_to_Z d0 + byte_to_Z d1))).
Proof.
  apply (proj1 (single_read_result (Bus := MockBus) (mkHDC1080 64 0)
                  (initial_world [Byte.x66; Byte.x40])
                  ltac:(reflexivity)
                  ltac:(unfold READ_BOTH_VALUES; simpl; lia))).
Defined.

Lemma reading_ranges_witness :
  exists t h qt qh,
    fst (temperature_and_humidity (mkHDC1080 64 1)
           (initial_world (Bus := MockBus)
              [Byte.xff; Byte.xff; Byte.xff; Byte.xff])) = inr (t, h)
    /\ denotes t qt = true /\ denotes h qh = true
    /\ (- (245 # 2) <= qt)%Q /\ (qt < 85 # 2)%Q
    /\ (- (50) <= qh)%Q /\ (qh < 50)%Q.
Proof.
  apply (proj2 (reading_ranges (Bus := MockBus) (mkHDC1080 64 1)
                  (initial_world [Byte.xff; Byte.xff; Byte.xff; Byte.xff])
                  ltac:(reflexivity))).
  unfold READ_SINGLE_VALUE. simpl. lia.
Defined.

Lemma signed_reading_offset_witness :
  exists s,
    unpack_from ">h" [Byte.xff; Byte.xff] 0 = Some s
    /\ denotes (_convert_to_celsius s)
         (celsius_Q 65535 - (if 65535 <? 32768 then 0 else 165))%Q = true
    /\ denotes (_convert_to_relative_humidity s)
         (relative_humidity_Q 65535
          - (if 65535 <? 32768 then 0 else 100))%Q = true.
Proof.
  apply (signed_reading_offset [Byte.xff; Byte.xff] 0 65535).
  reflexivity.
Defined.

Lemma construction_keeps_other_bits_witness :
  exists (i1 i0 r1 r0 t1 t0 h1 h0 m1 m0 : byte)
         (wr1 wr0 wt1 wt0 wh1 wh0 wm1 wm0 : byte),
    log (snd (__init__ 64 1 (initial_world found_script))) =
       [] ++
       [Write 64 [Byte.xff]; Read 64 [i1; i0];
        Write 64 [Byte.x02]; Read 64 [r1; r0];
        Write 64 [Byte.x02; wr1; wr0];
        Sleep (seconds 0.015);
        Write 64 [Byte.x02]; Read 64 [t1; t0];
        Write 64 [Byte.x02; wt1; wt0];
        Write 64 [Byte.x02]; Read 64 [h1; h0];
        Write 64 [Byte.x02; wh1; wh0];
        Write 64 [Byte.x02]; Read 64 [m1; m0];
        Write 64 [Byte.x02; wm1; wm0]]
    /\ be16 wr1 wr0 = Z.lor (be16 r1 r0) 0x8000
    /\ be16 wt1 wt0 = Z.land (be16 t1 t0) (Z.lnot 0x0400)
    /\ be16 wh1 wh0 = Z.land (be16 h1 h0) (Z.lnot 0x0300)
    /\ be16 wm1 wm0 = (if 1 =? 0
                       then Z.land (be16 m1 m0) (Z.lnot 0x1000)
                       else Z.lor (be16 m1 m0) 0x1000).
Proof.
  apply (construction_keeps_other_bits (Bus := MockBus) 64 1
           (initial_world found_script)).
  reflexivity.
Defined.

Lemma default_driver_reads_witness :
  exists self w1 t h,
    HDC1080_default (initial_world found_script) = (inr self, w1)
    /\ i2c_device self = 0x40 /\ mode self = 0
    /\ fst (temperature self w1) = inr t
    /\ fst (humidity self w1) = inr h
    /\ temperature_and_humidity self w1 = (inl wrong_mode_both, w1).
Proof.
  apply (default_driver_reads (Bus := MockBus) (initial_world found_script)).
  - reflexivity.
  - reflexivity.
Defined.

Lemma debug_config_register_run_witness :
  exists d0 d1,
    fst (_debug_config_register (mkHDC1080 64 1)
           (initial_world (Bus := MockBus) [Byte.x10; Byte.x00]))
    = inr [format_08b (byte_to_Z d0); format_08b (byte_to_Z d1)]
    /\ log (snd (_debug_config_register (mkHDC1080 64 1)
                   (initial_world (Bus := MockBus) [Byte.x10; Byte.x00]))) =
       [] ++ [Write 64 [Byte.x02]; Sleep (seconds 0.0635); Read 64 [d0; d1]]
    /\ _BUFFER (snd (_debug_config_register (mkHDC1080 64 1)
                       (initial_world (Bus := MockBus)
                          [Byte.x10; Byte.x00])))
       = [Byte.x02; d0; d1] ++ drop 3 initial_BUFFER.
Proof.
  apply (debug_config_register_run (Bus := MockBus) (mkHDC1080 64 1)
           (initial_world [Byte.x10; Byte.x00])).
  reflexivity.
Defined.

Lemma construction_frame_witness :
  mkHDC1080 64 1 = mkHDC1080 64 1
  /\ fst (_device_id (mkHDC1080 64 1) (initial_world found_script))
     = inr _HDC1080_DEVICE_ID.
Proof.
  apply (proj2 (construction_frame (Bus := MockBus) 64 1
                  (initial_world found_script)) (mkHDC1080 64 1)).
  reflexivity.
Defined.
